(** * The backend entry point ([cmd/server/server.go]) as a Rocq program

    [main] wires the backend together: it loads the configuration, sets the
    logger up, opens the SQLite database through gorm, migrates the tables,
    makes sure an [admin] account exists and starts the HTTP router.

    Every collaborator that [main] calls lives outside the file (the
    configuration loader, the logger, gorm and the database behind it,
    bcrypt, the router).  Their answers are gathered in a [World]; what
    [main] does with these answers is translated statement by statement.
    The calls [main] makes are recorded, in program order, in a trace. *)

From Stdlib Require Import ZArith List String Ascii Bool Lia.
From Stdlib Require Import DecimalString DecimalZ.
Import ListNotations.

Open Scope string_scope.
Open Scope Z_scope.

(** ** Values shared with the collaborators *)

(** A Go [error] value, kept as its message. *)
Definition error := string.

(** [[]byte(s)] and [string(b)]. *)
Definition bytes := list Byte.byte.
Definition bytes_of (s : string) : bytes := list_byte_of_string s.
Definition string_of (b : bytes) : string := string_of_list_byte b.

(** The fields of [config.Config] that [main] reads. *)
Module config.
Record LogConfig := { Level : string; Format : string }.
Record ServerConfig := { Port : Z }.
Record DatabaseConfig := { DSN : string }.
Record Config :=
  { Log : LogConfig; Server : ServerConfig; Database : DatabaseConfig }.
End config.

(** The fields of [models.User] that [main] fills in. *)
Module models.
Record User := {
  Username : string;
  Email : string;
  DisplayName : string;
  PasswordHash : string;
  Role : string
}.
End models.

(** ** bcrypt *)
Module bcrypt.
Definition DefaultCost : Z := 10.
End bcrypt.

(** ** fmt *)
Module fmt.
(** The verb [%d] on an integer: its decimal digits, with a leading minus
    sign for a negative number. *)
Definition verb_d (n : Z) : string := NilEmpty.string_of_int (Z.to_int n).
End fmt.

(** ** The trace *)

(** A value logged under a key. *)
Inductive LogVal :=
| VStr (s : string)
| VInt (n : Z)
| VErr (e : error).

Definition attrs := list (string * LogVal).

(** One entry per call that leaves [main]. *)
Inductive Event :=
| EvLoadConfig
| EvLoggerInit (level format : string)
| EvLogInfo (msg : string) (kv : attrs)
| EvLogError (msg : string) (kv : attrs)
| EvOpen (dsn : string)
| EvAutoMigrate
| EvGenerateFromPassword (password : bytes) (cost : Z)
| EvFirstOrCreate (cond dest : models.User)
| EvNewUserAdapter
| EvNewSessionAdapter
| EvDefaultAuthConfig
| EvNewAuthManager
| EvNewEmailService
| EvNewAuthService
| EvNewAuthHandler
| EvSetupRouter
| EvRun (addr : string)
| EvExit (code : Z).

(** ** The world around [main] *)

(** What [r.Run] does: it serves until the process is killed, or it comes
    back with its [error] result. *)
Inductive RunResult :=
| Blocks
| Returns (err : option error).

(** The answers of the collaborators during one run of the process.  A Go
    result pair [(v, err)] is a pair whose second component is [None] for a
    [nil] error.  [w_Find] and [w_Create] are the errors the database
    reports for the [SELECT] and for the [INSERT] issued by
    [FirstOrCreate]. *)
Record World := {
  w_LoadConfig : config.Config * option error;
  w_Open : string -> option error;
  w_AutoMigrate : option error;
  w_GenerateFromPassword : bytes -> Z -> bytes * option error;
  w_Find : option error;
  w_Create : models.User -> option error;
  w_Run : string -> RunResult
}.

(** The rows of the [users] table, in primary-key order. *)
Definition Table := list models.User.

(** The state a run carries along: the calls made so far, oldest first, and
    the table of users in the database. *)
Record Proc := { trace : list Event; users : Table }.

Definition emit (e : Event) (s : Proc) : Proc :=
  {| trace := trace s ++ [e]; users := users s |}.

(** ** A monad for a process that may stop *)

(** How a process stops other than by returning from [main]. *)
Inductive Halt :=
| Exited (code : Z)
| Serving (addr : string).

Inductive Res (A : Type) :=
| Next (a : A) (s : Proc)
| Stop (h : Halt) (s : Proc).
Arguments Next {A} a s.
Arguments Stop {A} h s.

Definition M (A : Type) := World -> Proc -> Res A.

Definition ret {A} (a : A) : M A := fun _ s => Next a s.

Definition bind {A B} (m : M A) (k : A -> M B) : M B :=
  fun w s =>
    match m w s with
    | Next a s' => k a w s'
    | Stop h s' => Stop h s'
    end.

Notation "x <- m ;; k" := (bind m (fun x => k))
  (at level 61, m at next level, right associativity).
Notation "' pat <- m ;; k" :=
  (bind m (fun x => match x with pat => k end))
  (at level 61, pat pattern, m at next level, right associativity).
Notation "m ;; k" := (bind m (fun _ => k))
  (at level 61, right associativity).

Definition call {A} (e : Event) (answer : World -> A) : M A :=
  fun w s => Next (answer w) (emit e s).

(** [if err != nil { body }]. *)
Definition ifErr (err : option error) (body : error -> M unit) : M unit :=
  match err with
  | Some e => body e
  | None => ret tt
  end.

Definition final {A} (r : Res A) : Proc :=
  match r with
  | Next _ s => s
  | Stop _ s => s
  end.

(** ** os *)
Module os.
Definition Exit {A} (code : Z) : M A :=
  fun _ s => Stop (Exited code) (emit (EvExit code) s).
End os.

(** ** logger *)
Module logger.
Definition Init (level format : string) : M unit :=
  call (EvLoggerInit level format) (fun _ => tt).
Definition Info (msg : string) (kv : attrs) : M unit :=
  call (EvLogInfo msg kv) (fun _ => tt).
Definition Error (msg : string) (kv : attrs) : M unit :=
  call (EvLogError msg kv) (fun _ => tt).
End logger.

(** ** config.LoadConfig *)
Definition config_LoadConfig : M (config.Config * option error) :=
  call EvLoadConfig w_LoadConfig.

(** ** bcrypt.GenerateFromPassword *)
Definition bcrypt_GenerateFromPassword (password : bytes) (cost : Z)
  : M (bytes * option error) :=
  call (EvGenerateFromPassword password cost)
       (fun w => w_GenerateFromPassword w password cost).

(** ** gorm

    [db.Where(cond).FirstOrCreate(dest)] on the [users] table.  A struct
    used as a condition constrains the columns whose field is not the zero
    value.  The first row, in primary-key order, that meets the condition is
    looked up.  When there is one, nothing is written ([main] gives no
    [Assign]) and no row is reported as affected.  When there is none, the
    fields of the condition are copied into [dest], which is inserted. *)
Module gorm.
Import models.

Record Result := { Error : option error; RowsAffected : Z }.

Definition field_meets (c v : string) : bool :=
  ((c =? "") || (c =? v))%string.

Definition meets (cond row : User) : bool :=
  field_meets (Username cond) (Username row)
  && field_meets (Email cond) (Email row)
  && field_meets (DisplayName cond) (DisplayName row)
  && field_meets (PasswordHash cond) (PasswordHash row)
  && field_meets (Role cond) (Role row).

Definition assign_field (c v : string) : string :=
  if (c =? "")%string then v else c.

Definition assign (cond dest : User) : User :=
  {| Username := assign_field (Username cond) (Username dest);
     Email := assign_field (Email cond) (Email dest);
     DisplayName := assign_field (DisplayName cond) (DisplayName dest);
     PasswordHash := assign_field (PasswordHash cond) (PasswordHash dest);
     Role := assign_field (Role cond) (Role dest) |}.

Definition Open (dsn : string) : M (option error) :=
  call (EvOpen dsn) (fun w => w_Open w dsn).

Definition AutoMigrate : M (option error) :=
  call EvAutoMigrate w_AutoMigrate.

Definition FirstOrCreate (cond dest : User) : M Result :=
  fun w s =>
    let s := emit (EvFirstOrCreate cond dest) s in
    match w_Find w with
    | Some e => Next {| Error := Some e; RowsAffected := 0 |} s
    | None =>
        match find (meets cond) (users s) with
        | Some _ => Next {| Error := None; RowsAffected := 0 |} s
        | None =>
            let row := assign cond dest in
            match w_Create w row with
            | Some e => Next {| Error := Some e; RowsAffected := 0 |} s
            | None =>
                Next {| Error := None; RowsAffected := 1 |}
                     {| trace := trace s; users := (users s ++ [row])%list |}
            end
        end
    end.
End gorm.

(** ** router *)
Module router.
(** [r.Run(addr)]: when the router serves, control never comes back. *)
Definition Run (addr : string) : M (option error) :=
  fun w s =>
    let s := emit (EvRun addr) s in
    match w_Run w addr with
    | Blocks => Stop (Serving addr) s
    | Returns err => Next err s
    end.
End router.

(** ** main *)

(** [models.User{Username: "admin"}], the condition of the lookup. *)
Definition admin_cond : models.User :=
  {| models.Username := "admin"; models.Email := "";
     models.DisplayName := ""; models.PasswordHash := "";
     models.Role := "" |}.

(** The record handed to [FirstOrCreate]. *)
Definition admin_dest (passwordHash : bytes) : models.User :=
  {| models.Username := "admin";
     models.Email := "onyx.views5004@eagereverest.com";
     models.DisplayName := "Administrator";
     models.PasswordHash := string_of passwordHash;
     models.Role := "admin" |}.

(** The address the router is started on. *)
Definition listen_addr (cfg : config.Config) : string :=
  let port := ":8080" in
  if config.Port (config.Server cfg) =? 0 then port
  else ":" ++ fmt.verb_d (config.Port (config.Server cfg)).

(** The wiring between the bootstrap and the start of the router. *)
Definition wire : M unit :=
  call EvNewUserAdapter (fun _ => tt) ;;
  call EvNewSessionAdapter (fun _ => tt) ;;
  call EvDefaultAuthConfig (fun _ => tt) ;;
  call EvNewAuthManager (fun _ => tt) ;;
  call EvNewEmailService (fun _ => tt) ;;
  call EvNewAuthService (fun _ => tt) ;;
  call EvNewAuthHandler (fun _ => tt) ;;
  call EvSetupRouter (fun _ => tt).

Definition main : M unit :=
  '(cfg, err) <- config_LoadConfig ;;
  ifErr err (fun err =>
    logger.Init "info" "text" ;;
    logger.Error "Falha ao carregar as configurações" [("error", VErr err)] ;;
    os.Exit 1) ;;
  let logLevel := config.Level (config.Log cfg) in
  let logLevel := if (logLevel =? "")%string then "info" else logLevel in
  let logFormat := config.Format (config.Log cfg) in
  let logFormat := if (logFormat =? "")%string then "text" else logFormat in
  logger.Init logLevel logFormat ;;
  logger.Info "Iniciando servidor"
              [("port", VInt (config.Port (config.Server cfg)))] ;;
  let dbDSN := config.DSN (config.Database cfg) in
  err <- gorm.Open dbDSN ;;
  ifErr err (fun err =>
    logger.Error "Falha ao conectar ao banco de dados"
                 [("error", VErr err); ("dsn", VStr dbDSN)] ;;
    os.Exit 1) ;;
  logger.Info "Conectado ao banco de dados" [("dsn", VStr dbDSN)] ;;
  err <- gorm.AutoMigrate ;;
  ifErr err (fun err =>
    logger.Error "Falha ao executar migrações" [("error", VErr err)] ;;
    os.Exit 1) ;;
  logger.Info "Migrações executadas com sucesso" [] ;;
  '(passwordHash, err) <-
    bcrypt_GenerateFromPassword (bytes_of "admin") bcrypt.DefaultCost ;;
  ifErr err (fun err =>
    logger.Error "Falha ao gerar hash da senha do admin"
                 [("error", VErr err)]) ;;
  result <- gorm.FirstOrCreate admin_cond (admin_dest passwordHash) ;;
  ifErr (gorm.Error result) (fun err =>
    logger.Error "Falha ao criar usuário admin" [("error", VErr err)]) ;;
  logger.Info "Usuário admin verificado"
              [("rows_affected", VInt (gorm.RowsAffected result))] ;;
  wire ;;
  let port := listen_addr cfg in
  logger.Info "Servidor iniciado" [("port", VStr port)] ;;
  err <- router.Run port ;;
  ifErr err (fun err =>
    logger.Error "Erro ao iniciar servidor"
                 [("error", VErr err); ("port", VStr port)] ;;
    os.Exit 1).

(** One run of the process against a database holding the rows [t]. *)
Definition run (w : World) (t : Table) : Res unit :=
  main w {| trace := []; users := t |}.

Definition trace_of (w : World) (t : Table) : list Event :=
  trace (final (run w t)).

Definition users_after (w : World) (t : Table) : Table :=
  users (final (run w t)).

(** ** The three parts of [main]

    [main] is one function.  To reason about it, its statements after the
    migration are also given as two computations, [bootstrap] (the admin
    account) and [serve] (adapters, router, listening); [run_started] below
    shows that [main] runs exactly these two once the start-up went well. *)

Definition bootstrap : M unit :=
  '(passwordHash, err) <-
    bcrypt_GenerateFromPassword (bytes_of "admin") bcrypt.DefaultCost ;;
  ifErr err (fun err =>
    logger.Error "Falha ao gerar hash da senha do admin"
                 [("error", VErr err)]) ;;
  result <- gorm.FirstOrCreate admin_cond (admin_dest passwordHash) ;;
  ifErr (gorm.Error result) (fun err =>
    logger.Error "Falha ao criar usuário admin" [("error", VErr err)]) ;;
  logger.Info "Usuário admin verificado"
              [("rows_affected", VInt (gorm.RowsAffected result))].

Definition serve (cfg : config.Config) : M unit :=
  wire ;;
  let port := listen_addr cfg in
  logger.Info "Servidor iniciado" [("port", VStr port)] ;;
  err <- router.Run port ;;
  ifErr err (fun err =>
    logger.Error "Erro ao iniciar servidor"
                 [("error", VErr err); ("port", VStr port)] ;;
    os.Exit 1).

(** The logger settings [main] derives from a loaded configuration. *)
Definition log_level (cfg : config.Config) : string :=
  let logLevel := config.Level (config.Log cfg) in
  if (logLevel =? "")%string then "info" else logLevel.

Definition log_format (cfg : config.Config) : string :=
  let logFormat := config.Format (config.Log cfg) in
  if (logFormat =? "")%string then "text" else logFormat.

(** The calls made up to the end of the migration when nothing fails. *)
Definition startup_trace (cfg : config.Config) : list Event :=
  let dbDSN := config.DSN (config.Database cfg) in
  [ EvLoadConfig;
    EvLoggerInit (log_level cfg) (log_format cfg);
    EvLogInfo "Iniciando servidor"
              [("port", VInt (config.Port (config.Server cfg)))];
    EvOpen dbDSN;
    EvLogInfo "Conectado ao banco de dados" [("dsn", VStr dbDSN)];
    EvAutoMigrate;
    EvLogInfo "Migrações executadas com sucesso" [] ].

(** The calls of the wiring. *)
Definition wire_trace : list Event :=
  [ EvNewUserAdapter; EvNewSessionAdapter; EvDefaultAuthConfig;
    EvNewAuthManager; EvNewEmailService; EvNewAuthService;
    EvNewAuthHandler; EvSetupRouter ].

(** What [if err != nil { logger.Error(msg, "error", err) }] adds. *)
Definition log_if (err : option error) (msg : string) : list Event :=
  match err with
  | Some e => [EvLogError msg [("error", VErr e)]]
  | None => []
  end.

(** The answer of bcrypt to the one call [main] makes. *)
Definition admin_hash (w : World) : bytes * option error :=
  w_GenerateFromPassword w (bytes_of "admin") bcrypt.DefaultCost.

(** The start-up went well: the configuration was loaded, the database was
    opened and the tables were migrated. *)
Definition starts (w : World) : Prop :=
  snd (w_LoadConfig w) = None
  /\ w_Open w (config.DSN (config.Database (fst (w_LoadConfig w)))) = None
  /\ w_AutoMigrate w = None.

(** The database answers the [SELECT] and the [INSERT] without an error. *)
Definition storage_ok (w : World) : Prop :=
  w_Find w = None /\ forall u, w_Create w u = None.

(** Rows named [admin]. *)
Definition is_admin (u : models.User) : bool :=
  ("admin" =? models.Username u)%string.

Definition has_admin (t : Table) : bool := existsb is_admin t.

Definition count_admin (t : Table) : nat := List.length (filter is_admin t).

(** The outcomes of [db.Where(cond).FirstOrCreate(dest)] on a table: the
    result handed back and the table left behind. *)
Inductive foc (w : World) (cond dest : models.User) (t : Table)
  : gorm.Result -> Table -> Prop :=
| foc_find_failed e :
    w_Find w = Some e ->
    foc w cond dest t {| gorm.Error := Some e; gorm.RowsAffected := 0 |} t
| foc_found u :
    w_Find w = None ->
    find (gorm.meets cond) t = Some u ->
    foc w cond dest t {| gorm.Error := None; gorm.RowsAffected := 0 |} t
| foc_create_failed e :
    w_Find w = None ->
    find (gorm.meets cond) t = None ->
    w_Create w (gorm.assign cond dest) = Some e ->
    foc w cond dest t {| gorm.Error := Some e; gorm.RowsAffected := 0 |} t
| foc_created :
    w_Find w = None ->
    find (gorm.meets cond) t = None ->
    w_Create w (gorm.assign cond dest) = None ->
    foc w cond dest t {| gorm.Error := None; gorm.RowsAffected := 1 |}
        (t ++ [gorm.assign cond dest])%list.

(** The logger is set up before it is used: scanning a trace, [ready] tells
    whether [logger.Init] has been called. *)
Fixpoint logger_ok (ready : bool) (tr : list Event) : bool :=
  match tr with
  | [] => true
  | EvLoggerInit _ _ :: tr' => logger_ok true tr'
  | EvLogInfo _ _ :: tr' => ready && logger_ok ready tr'
  | EvLogError _ _ :: tr' => ready && logger_ok ready tr'
  | _ :: tr' => logger_ok ready tr'
  end.

(** The settings of the first [logger.Init] of a trace. *)
Fixpoint first_init (tr : list Event) : option (string * string) :=
  match tr with
  | [] => None
  | EvLoggerInit level format :: _ => Some (level, format)
  | _ :: tr' => first_init tr'
  end.

(** The calls of the admin bootstrap. *)
Definition is_bootstrap_call (e : Event) : bool :=
  match e with
  | EvGenerateFromPassword _ _ => true
  | EvFirstOrCreate _ _ => true
  | _ => false
  end.

Definition is_exit (e : Event) : bool :=
  match e with
  | EvExit _ => true
  | _ => false
  end.

Definition is_run (e : Event) : bool :=
  match e with
  | EvRun _ => true
  | _ => false
  end.

(** The calls of the bootstrap, given the result of [FirstOrCreate]. *)
Definition bootstrap_trace (w : World) (r : gorm.Result) : list Event :=
  (EvGenerateFromPassword (bytes_of "admin") bcrypt.DefaultCost
   :: log_if (snd (admin_hash w)) "Falha ao gerar hash da senha do admin"
   ++ EvFirstOrCreate admin_cond (admin_dest (fst (admin_hash w)))
   :: log_if (gorm.Error r) "Falha ao criar usuário admin"
   ++ [EvLogInfo "Usuário admin verificado"
                 [("rows_affected", VInt (gorm.RowsAffected r))]])%list.

(** The calls made on the three paths that leave [main] during start-up. *)
Definition config_error_trace (e : error) : list Event :=
  [ EvLoadConfig;
    EvLoggerInit "info" "text";
    EvLogError "Falha ao carregar as configurações" [("error", VErr e)];
    EvExit 1 ].

Definition open_error_trace (cfg : config.Config) (e : error) : list Event :=
  let dbDSN := config.DSN (config.Database cfg) in
  [ EvLoadConfig;
    EvLoggerInit (log_level cfg) (log_format cfg);
    EvLogInfo "Iniciando servidor"
              [("port", VInt (config.Port (config.Server cfg)))];
    EvOpen dbDSN;
    EvLogError "Falha ao conectar ao banco de dados"
               [("error", VErr e); ("dsn", VStr dbDSN)];
    EvExit 1 ].

Definition migrate_error_trace (cfg : config.Config) (e : error)
  : list Event :=
  let dbDSN := config.DSN (config.Database cfg) in
  [ EvLoadConfig;
    EvLoggerInit (log_level cfg) (log_format cfg);
    EvLogInfo "Iniciando servidor"
              [("port", VInt (config.Port (config.Server cfg)))];
    EvOpen dbDSN;
    EvLogInfo "Conectado ao banco de dados" [("dsn", VStr dbDSN)];
    EvAutoMigrate;
    EvLogError "Falha ao executar migrações" [("error", VErr e)];
    EvExit 1 ].

(** The paths of a run, up to the wiring: the three exits of the start-up
    and the path through the bootstrap into [serve]. *)
Inductive path (w : World) (t : Table) : Res unit -> Prop :=
| path_config_error cfg e :
    w_LoadConfig w = (cfg, Some e) ->
    path w t (Stop (Exited 1)
                   {| trace := config_error_trace e; users := t |})
| path_open_error cfg e :
    w_LoadConfig w = (cfg, None) ->
    w_Open w (config.DSN (config.Database cfg)) = Some e ->
    path w t (Stop (Exited 1)
                   {| trace := open_error_trace cfg e; users := t |})
| path_migrate_error cfg e :
    w_LoadConfig w = (cfg, None) ->
    w_Open w (config.DSN (config.Database cfg)) = None ->
    w_AutoMigrate w = Some e ->
    path w t (Stop (Exited 1)
                   {| trace := migrate_error_trace cfg e; users := t |})
| path_started cfg r t' :
    w_LoadConfig w = (cfg, None) ->
    w_Open w (config.DSN (config.Database cfg)) = None ->
    w_AutoMigrate w = None ->
    foc w admin_cond (admin_dest (fst (admin_hash w))) t r t' ->
    path w t (serve cfg w
                {| trace := (startup_trace cfg ++ bootstrap_trace w r)%list;
                   users := t' |}).

(** [err != nil]. *)
Definition isErr (err : option error) : bool :=
  match err with
  | Some _ => true
  | None => false
  end.

(** What the trace ends with after [r.Run] was called. *)
Definition run_tail (w : World) (cfg : config.Config) : list Event :=
  let port := listen_addr cfg in
  match w_Run w port with
  | Returns (Some e) =>
      [ EvLogError "Erro ao iniciar servidor"
                   [("error", VErr e); ("port", VStr port)];
        EvExit 1 ]
  | _ => []
  end.

(** How the process ends once [r.Run] was called. *)
Definition run_end (w : World) (cfg : config.Config) (s : Proc) : Res unit :=
  match w_Run w (listen_addr cfg) with
  | Blocks => Stop (Serving (listen_addr cfg)) s
  | Returns None => Next tt s
  | Returns (Some _) => Stop (Exited 1) s
  end.

(** What bcrypt promises about [GenerateFromPassword]: a hash has 60 bytes,
    and an error comes with a nil slice. *)
Definition bcrypt_contract (w : World) : Prop :=
  forall password cost,
    match w_GenerateFromPassword w password cost with
    | (h, None) => List.length h = 60%nat
    | (h, Some _) => h = []
    end.

(** ** Sample worlds *)

Definition sample_cfg : config.Config :=
  {| config.Log := {| config.Level := ""; config.Format := "json" |};
     config.Server := {| config.Port := 3000 |};
     config.Database := {| config.DSN := "app.db" |} |}.

Definition sample_hash : bytes :=
  bytes_of "$2a$10$N9qo8uLOickgx2ZMRZoMyeIjZAgcfl7p92ldGxad68LJZdL17lhWy".

(** Every collaborator answers without an error and the router serves. *)
Definition healthy : World :=
  {| w_LoadConfig := (sample_cfg, None);
     w_Open := fun _ => None;
     w_AutoMigrate := None;
     w_GenerateFromPassword := fun _ _ => (sample_hash, None);
     w_Find := None;
     w_Create := fun _ => None;
     w_Run := fun _ => Blocks |}.

(** The configuration cannot be loaded. *)
Definition no_config : World :=
  {| w_LoadConfig := (sample_cfg, Some "config.yaml: no such file");
     w_Open := fun _ => None;
     w_AutoMigrate := None;
     w_GenerateFromPassword := fun _ _ => (sample_hash, None);
     w_Find := None;
     w_Create := fun _ => None;
     w_Run := fun _ => Blocks |}.

(** bcrypt fails and the database refuses the insert. *)
Definition broken_bootstrap : World :=
  {| w_LoadConfig := (sample_cfg, None);
     w_Open := fun _ => None;
     w_AutoMigrate := None;
     w_GenerateFromPassword := fun _ _ => ([], Some "crypto/rand: no entropy");
     w_Find := None;
     w_Create := fun _ => Some "UNIQUE constraint failed: users.email";
     w_Run := fun _ => Blocks |}.

(** bcrypt fails, the database works. *)
Definition no_entropy : World :=
  {| w_LoadConfig := (sample_cfg, None);
     w_Open := fun _ => None;
     w_AutoMigrate := None;
     w_GenerateFromPassword := fun _ _ => ([], Some "crypto/rand: no entropy");
     w_Find := None;
     w_Create := fun _ => None;
     w_Run := fun _ => Blocks |}.

(** A user who registered earlier. *)
Definition alice : models.User :=
  {| models.Username := "alice"; models.Email := "alice@example.org";
     models.DisplayName := "Alice"; models.PasswordHash := "$2a$10$alice";
     models.Role := "user" |}.

(** * The Auth Manager

    [main] builds the Auth Manager ([auth.NewAuthManager]) from the two
    adapters; the package [internal/auth] itself is not among the sources at
    hand. *)
Module auth.

(** Modelled from the spec: the error kinds of package [internal/auth],
    which is missing from the sources (section 7, taxonomy). *)
Inductive AuthError :=
| InvalidCredentials
| SessionInvalid
| UserNotFound
| DuplicateIdentifier
| StorageUnavailable.

(** Modelled from the spec: the session record of package [internal/auth]
    (section 3): token, owning user identifier, creation and expiry
    time. *)
Record Session := {
  Token : string;
  UserIdentifier : string;
  CreatedAt : Z;
  ExpiresAt : Z
}.

(** Modelled from the spec: the policy value of package [internal/auth]
    (section 4.4), of which authentication reads the session lifetime. *)
Record AuthConfig := { SessionTTL : Z }.

(** Modelled from the spec: the lookup of the Credential Store Adapter
    (section 4.2), [FindByIdentifier(id) -> User | absent], over any
    storage. *)
Class UserAdapter (US : Type) := {
  FindByIdentifier : US -> string -> option models.User
}.

(** Modelled from the spec: the write of the Session Store Adapter
    (section 4.3), [Create(Session) -> success], over any storage. *)
Class SessionAdapter (SS : Type) := {
  Create : SS -> Session -> SS
}.

Section Manager.
Context {US SS : Type} {UA : UserAdapter US} {SA : SessionAdapter SS}.

(** The policy, and the salted one-way comparison of a stored hash with
    a plaintext password. *)
Variable policy : AuthConfig.
Variable compare : string -> string -> bool.

(** Modelled from the spec: [Authenticate] of the Auth Manager in
    package [internal/auth] (section 4.1).  The user is looked up by
    identifier, [InvalidCredentials] if absent; the password is compared
    with the stored hash; on a match a session expiring at
    [now + SessionTTL] is created and persisted; on a mismatch
    [InvalidCredentials].  [now] is the clock and [token] the fresh
    token of the session. *)
Definition Authenticate (users : US) (sessions : SS) (now : Z)
           (token : string) (identifier plaintextPassword : string)
  : (Session + AuthError) * SS :=
  match FindByIdentifier users identifier with
  | None => (inr InvalidCredentials, sessions)
  | Some u =>
      if compare (models.PasswordHash u) plaintextPassword then
        let session :=
          {| Token := token;
             UserIdentifier := models.Username u;
             CreatedAt := now;
             ExpiresAt := now + SessionTTL policy |} in
        (inl session, Create sessions session)
      else (inr InvalidCredentials, sessions)
  end.
End Manager.

(** A table of users as a credential store: the identifier is the
    username or the e-mail address. *)
#[global] Instance table_UserAdapter : UserAdapter Table := {
  FindByIdentifier t id :=
    find (fun u => ((models.Username u =? id)
                    || (models.Email u =? id))%string) t
}.

(** A list of sessions as a session store. *)
#[global] Instance list_SessionAdapter : SessionAdapter (list Session) := {
  Create ss s := (ss ++ [s])%list
}.

(** A stand-in for the hash comparison: the hash is the password behind a
    fixed prefix. *)
Definition sample_compare (hash password : string) : bool :=
  (hash =? "$2a$10$" ++ password)%string.

Definition sample_policy : AuthConfig := {| SessionTTL := 3600 |}.
End auth.


(** * Further views of a run *)

(** The table after the process was started once per world of [ws], one
    run after the other, against the same database. *)
Definition restarts (ws : list World) (t : Table) : Table :=
  fold_left (fun t w => users_after w t) ws t.

Definition usernames (t : Table) : list string := map models.Username t.

Definition is_logger_init (e : Event) : bool :=
  match e with
  | EvLoggerInit _ _ => true
  | _ => false
  end.

(** The calls other than those to the logger and to [os.Exit]. *)
Definition is_step (e : Event) : bool :=
  match e with
  | EvLoggerInit _ _ => false
  | EvLogInfo _ _ => false
  | EvLogError _ _ => false
  | EvExit _ => false
  | _ => true
  end.

(** The calls of [main], the logger aside, in the order of the program
    text. *)
Definition plan (w : World) : list Event :=
  let cfg := fst (w_LoadConfig w) in
  ([ EvLoadConfig;
     EvOpen (config.DSN (config.Database cfg));
     EvAutoMigrate;
     EvGenerateFromPassword (bytes_of "admin") bcrypt.DefaultCost;
     EvFirstOrCreate admin_cond (admin_dest (fst (admin_hash w))) ]
   ++ wire_trace
   ++ [ EvRun (listen_addr cfg) ])%list.

(** How far into [plan] a run gets: the start-up stops it after the call
    that failed. *)
Definition steps_done (w : World) : nat :=
  let cfg := fst (w_LoadConfig w) in
  if isErr (snd (w_LoadConfig w)) then 1%nat
  else if isErr (w_Open w (config.DSN (config.Database cfg))) then 2%nat
  else if isErr (w_AutoMigrate w) then 3%nat
  else List.length (plan w).

(** [os.Exit] is called with code 1, right after a [logger.Error], and
    nothing follows it.  [after_error] tells whether the call before was a
    [logger.Error]. *)
Fixpoint exit_ok (after_error : bool) (tr : list Event) : bool :=
  match tr with
  | [] => true
  | EvExit code :: tr' =>
      after_error && (code =? 1)
      && match tr' with [] => true | _ :: _ => false end
  | EvLogError _ _ :: tr' => exit_ok true tr'
  | _ :: tr' => exit_ok false tr'
  end.

(** How a run ended: [None] when [main] returned. *)
Definition outcome (r : Res unit) : option Halt :=
  match r with
  | Next _ _ => None
  | Stop h _ => Some h
  end.

(** The router comes back without an error. *)
Definition router_returns : World :=
  {| w_LoadConfig := (sample_cfg, None);
     w_Open := fun _ => None;
     w_AutoMigrate := None;
     w_GenerateFromPassword := fun _ _ => (sample_hash, None);
     w_Find := None;
     w_Create := fun _ => None;
     w_Run := fun _ => Returns None |}.

(** The port is taken. *)
Definition port_taken : World :=
  {| w_LoadConfig := (sample_cfg, None);
     w_Open := fun _ => None;
     w_AutoMigrate := None;
     w_GenerateFromPassword := fun _ _ => (sample_hash, None);
     w_Find := None;
     w_Create := fun _ => None;
     w_Run := fun _ => Returns (Some "listen tcp :3000: bind: address in use")
  |}.

(** A configuration that differs from [sample_cfg] in the port. *)
Definition cfg_on (port : Z) : config.Config :=
  {| config.Log := config.Log sample_cfg;
     config.Server := {| config.Port := port |};
     config.Database := config.Database sample_cfg |}.

(** * Lemmas *)

Open Scope list_scope.

Arguments listen_addr : simpl never.

(** ** The program on the sample worlds *)

Example healthy_first_run :
  run healthy [alice] =
  Stop (Serving ":3000")
       {| trace :=
            startup_trace sample_cfg
            ++ [ EvGenerateFromPassword (bytes_of "admin") 10;
                 EvFirstOrCreate admin_cond (admin_dest sample_hash);
                 EvLogInfo "Usuário admin verificado"
                           [("rows_affected", VInt 1)] ]
            ++ wire_trace
            ++ [ EvLogInfo "Servidor iniciado" [("port", VStr ":3000")];
                 EvRun ":3000" ];
          users := [alice; admin_dest sample_hash] |}.
Proof. reflexivity. Qed.

Example healthy_second_run :
  run healthy [alice; admin_dest sample_hash] =
  Stop (Serving ":3000")
       {| trace :=
            startup_trace sample_cfg
            ++ [ EvGenerateFromPassword (bytes_of "admin") 10;
                 EvFirstOrCreate admin_cond (admin_dest sample_hash);
                 EvLogInfo "Usuário admin verificado"
                           [("rows_affected", VInt 0)] ]
            ++ wire_trace
            ++ [ EvLogInfo "Servidor iniciado" [("port", VStr ":3000")];
                 EvRun ":3000" ];
          users := [alice; admin_dest sample_hash] |}.
Proof. reflexivity. Qed.

Example second_run_keeps_first_hash :
  users_after no_entropy (users_after healthy [alice]) =
  [alice; admin_dest sample_hash].
Proof. reflexivity. Qed.

Example no_config_run :
  run no_config [alice] =
  Stop (Exited 1)
       {| trace :=
            [ EvLoadConfig;
              EvLoggerInit "info" "text";
              EvLogError "Falha ao carregar as configurações"
                         [("error", VErr "config.yaml: no such file")];
              EvExit 1 ];
          users := [alice] |}.
Proof. reflexivity. Qed.

Example broken_bootstrap_run :
  trace_of broken_bootstrap [alice] =
  startup_trace sample_cfg
  ++ [ EvGenerateFromPassword (bytes_of "admin") 10;
       EvLogError "Falha ao gerar hash da senha do admin"
                  [("error", VErr "crypto/rand: no entropy")];
       EvFirstOrCreate admin_cond (admin_dest []);
       EvLogError "Falha ao criar usuário admin"
                  [("error", VErr "UNIQUE constraint failed: users.email")];
       EvLogInfo "Usuário admin verificado" [("rows_affected", VInt 0)] ]
  ++ wire_trace
  ++ [ EvLogInfo "Servidor iniciado" [("port", VStr ":3000")];
       EvRun ":3000" ]
  /\ users_after broken_bootstrap [alice] = [alice].
Proof. split; reflexivity. Qed.

Example listen_addr_examples :
  listen_addr sample_cfg = ":3000"%string
  /\ listen_addr
       {| config.Log := {| config.Level := ""; config.Format := "" |};
          config.Server := {| config.Port := 0 |};
          config.Database := {| config.DSN := "" |} |} = ":8080"%string
  /\ fmt.verb_d 65535 = "65535"%string
  /\ fmt.verb_d (-1) = "-1"%string.
Proof. repeat split; reflexivity. Qed.

(** Unfolds the monad and the stubs of the collaborators. *)
Ltac unfold_calls :=
  cbv [bind call ifErr ret config_LoadConfig logger.Init logger.Error
       logger.Info os.Exit gorm.Open gorm.AutoMigrate
       bcrypt_GenerateFromPassword gorm.FirstOrCreate router.Run wire emit
       trace users].

(** Puts the traces of both sides in the same shape. *)
Ltac same_trace := repeat rewrite <- app_assoc; cbn [app]; try reflexivity.

(** ** The paths through the start-up *)

Lemma run_config_error (w : World) (t : Table) cfg e :
  w_LoadConfig w = (cfg, Some e) ->
  run w t =
  Stop (Exited 1) {| trace := config_error_trace e; users := t |}.
Proof.
  intros H. unfold run, main. unfold_calls. rewrite H. reflexivity.
Qed.

Lemma run_open_error (w : World) (t : Table) cfg e :
  w_LoadConfig w = (cfg, None) ->
  w_Open w (config.DSN (config.Database cfg)) = Some e ->
  run w t =
  Stop (Exited 1) {| trace := open_error_trace cfg e; users := t |}.
Proof.
  intros Hc Ho. unfold run, main. unfold_calls. rewrite Hc. cbn.
  rewrite Ho. reflexivity.
Qed.

Lemma run_migrate_error (w : World) (t : Table) cfg e :
  w_LoadConfig w = (cfg, None) ->
  w_Open w (config.DSN (config.Database cfg)) = None ->
  w_AutoMigrate w = Some e ->
  run w t =
  Stop (Exited 1) {| trace := migrate_error_trace cfg e; users := t |}.
Proof.
  intros Hc Ho Hm. unfold run, main. unfold_calls. rewrite Hc. cbn.
  rewrite Ho, Hm. reflexivity.
Qed.

Lemma run_started (w : World) (t : Table) cfg :
  w_LoadConfig w = (cfg, None) ->
  w_Open w (config.DSN (config.Database cfg)) = None ->
  w_AutoMigrate w = None ->
  run w t =
  (bootstrap ;; serve cfg) w {| trace := startup_trace cfg; users := t |}.
Proof.
  intros Hc Ho Hm. unfold run, main, bootstrap, serve. unfold_calls.
  rewrite Hc. cbn. rewrite Ho, Hm.
  destruct (w_GenerateFromPassword w _ _) as [h [e|]];
    destruct (w_Find w) as [e1|]; try reflexivity;
    destruct (find _ _); try reflexivity;
    destruct (w_Create w _); reflexivity.
Qed.
(** ** The admin bootstrap *)

Lemma FirstOrCreate_spec (w : World) (s : Proc) cond dest :
  exists r t',
    foc w cond dest (users s) r t'
    /\ gorm.FirstOrCreate cond dest w s =
       Next r {| trace := trace s ++ [EvFirstOrCreate cond dest];
                 users := t' |}.
Proof.
  destruct s as [tr t]. unfold gorm.FirstOrCreate, emit; cbn [trace users].
  destruct (w_Find w) as [e|] eqn:Hf.
  - do 2 eexists; split; [apply foc_find_failed; exact Hf | reflexivity].
  - destruct (find (gorm.meets cond) t) as [u|] eqn:Hq.
    + do 2 eexists; split; [eapply foc_found; [exact Hf | exact Hq] | reflexivity].
    + destruct (w_Create w (gorm.assign cond dest)) as [e|] eqn:Hi.
      * do 2 eexists; split;
          [eapply foc_create_failed; [exact Hf | exact Hq | exact Hi] | reflexivity].
      * do 2 eexists; split; [apply foc_created; [exact Hf | exact Hq | exact Hi] | reflexivity].
Qed.

(** [foc] has one outcome per table. *)
Lemma foc_functional w cond dest t r1 t1 r2 t2 :
  foc w cond dest t r1 t1 -> foc w cond dest t r2 t2 -> r1 = r2 /\ t1 = t2.
Proof.
  intros H1 H2; inversion H1; subst; inversion H2; subst;
    try congruence; split; congruence.
Qed.

Lemma bootstrap_spec (w : World) (s : Proc) :
  exists r t',
    foc w admin_cond (admin_dest (fst (admin_hash w))) (users s) r t'
    /\ bootstrap w s =
       Next tt {| trace := trace s ++ bootstrap_trace w r; users := t' |}.
Proof.
  destruct s as [tr t]. unfold bootstrap, bootstrap_trace, admin_hash.
  unfold_calls.
  destruct (w_GenerateFromPassword w (bytes_of "admin") bcrypt.DefaultCost)
    as [h err].
  destruct err as [e'|]; cbn;
    (destruct (w_Find w) as [e|] eqn:Hf;
     [| destruct (find (gorm.meets admin_cond) t) as [u|] eqn:Hq;
        [| destruct (w_Create w (gorm.assign admin_cond (admin_dest h)))
             as [e|] eqn:Hi ]]);
    (do 2 eexists; split;
     [ first [ eapply foc_find_failed; exact Hf
             | eapply foc_found; [exact Hf | exact Hq]
             | eapply foc_create_failed; [exact Hf | exact Hq | exact Hi]
             | eapply foc_created; [exact Hf | exact Hq | exact Hi] ]
     | cbn; f_equal; f_equal; same_trace ]).
Qed.

(** ** Wiring and listening *)

Lemma serve_spec (cfg : config.Config) (w : World) (s : Proc) :
  let addr := listen_addr cfg in
  let tr := (trace s ++ wire_trace
             ++ [EvLogInfo "Servidor iniciado" [("port", VStr addr)];
                 EvRun addr])%list in
  serve cfg w s =
  match w_Run w addr with
  | Blocks => Stop (Serving addr) {| trace := tr; users := users s |}
  | Returns None => Next tt {| trace := tr; users := users s |}
  | Returns (Some e) =>
      Stop (Exited 1)
           {| trace := (tr ++ [EvLogError "Erro ao iniciar servidor"
                                  [("error", VErr e); ("port", VStr addr)];
                               EvExit 1])%list;
              users := users s |}
  end.
Proof.
  cbv zeta. unfold serve, wire_trace. unfold_calls.
  destruct (w_Run w (listen_addr cfg)) as [|[e|]]; cbn; f_equal; f_equal;
    same_trace.
Qed.


(** ** Every run follows one of the paths *)

Lemma run_path (w : World) (t : Table) : path w t (run w t).
Proof.
  destruct (w_LoadConfig w) as [cfg [e|]] eqn:Hc.
  - rewrite (run_config_error w t cfg e Hc). eapply path_config_error; eauto.
  - destruct (w_Open w (config.DSN (config.Database cfg))) as [e|] eqn:Ho.
    + rewrite (run_open_error w t cfg e Hc Ho). now apply path_open_error.
    + destruct (w_AutoMigrate w) as [e|] eqn:Hm.
      * rewrite (run_migrate_error w t cfg e Hc Ho Hm).
        now apply path_migrate_error.
      * rewrite (run_started w t cfg Hc Ho Hm). unfold bind at 1.
        destruct (bootstrap_spec w {| trace := startup_trace cfg; users := t |})
          as (r & t' & Hfoc & Heq).
        rewrite Heq. now apply path_started.
Qed.

Lemma starts_inv (w : World) :
  starts w ->
  exists cfg,
    w_LoadConfig w = (cfg, None)
    /\ w_Open w (config.DSN (config.Database cfg)) = None
    /\ w_AutoMigrate w = None.
Proof.
  unfold starts. destruct (w_LoadConfig w) as [cfg err]; cbn.
  intros (-> & Ho & Hm). now exists cfg.
Qed.

(** [serve] does not write to the table. *)
Lemma serve_users (cfg : config.Config) (w : World) (s : Proc) :
  users (final (serve cfg w s)) = users s.
Proof.
  rewrite serve_spec. destruct (w_Run w (listen_addr cfg)) as [|[e|]];
    reflexivity.
Qed.

(** ** Rows named admin *)

Lemma meets_admin_cond (u : models.User) :
  gorm.meets admin_cond u = is_admin u.
Proof.
  unfold gorm.meets, gorm.field_meets, is_admin; cbn.
  now rewrite !andb_true_r.
Qed.

Lemma assign_admin (h : bytes) :
  gorm.assign admin_cond (admin_dest h) = admin_dest h.
Proof. reflexivity. Qed.

Lemma find_admin_none (t : Table) :
  find (gorm.meets admin_cond) t = None <-> has_admin t = false.
Proof.
  induction t as [|u t IH]; cbn [find has_admin existsb]; [tauto|].
  rewrite meets_admin_cond. destruct (is_admin u); cbn [orb]; [|exact IH].
  split; discriminate.
Qed.

Lemma find_admin_some (t : Table) (u : models.User) :
  find (gorm.meets admin_cond) t = Some u -> has_admin t = true.
Proof.
  intros H. destruct (has_admin t) eqn:E; [reflexivity|].
  apply find_admin_none in E. congruence.
Qed.

Lemma count_admin_app (t1 t2 : Table) :
  count_admin (t1 ++ t2) = (count_admin t1 + count_admin t2)%nat.
Proof.
  unfold count_admin. now rewrite filter_app, length_app.
Qed.

Lemma count_admin_zero (t : Table) :
  has_admin t = false <-> count_admin t = 0%nat.
Proof.
  unfold count_admin.
  induction t as [|u t IH]; cbn [filter has_admin existsb]; [tauto|].
  destruct (is_admin u); cbn [orb List.length]; [|exact IH].
  split; discriminate.
Qed.

Lemma count_admin_dest (h : bytes) : count_admin [admin_dest h] = 1%nat.
Proof. reflexivity. Qed.

(** What [FirstOrCreate] leaves in the table, case by case. *)
Lemma foc_admin_table (w : World) (h : bytes) (t t' : Table) r :
  foc w admin_cond (admin_dest h) t r t' ->
  (t' = t /\ gorm.RowsAffected r = 0)
  \/ (t' = (t ++ [admin_dest h])%list
      /\ has_admin t = false /\ r = {| gorm.Error := None;
                                        gorm.RowsAffected := 1 |}).
Proof.
  intros H; inversion H; subst; cbn; auto.
  right. rewrite assign_admin. repeat split. now apply find_admin_none.
Qed.

Lemma foc_admin_found (w : World) (h : bytes) (t t' : Table) r :
  has_admin t = true ->
  foc w admin_cond (admin_dest h) t r t' -> t' = t.
Proof.
  intros Ha H. destruct (foc_admin_table w h t t' r H) as [[-> _]|(_ & Hn & _)];
    [reflexivity | congruence].
Qed.

Lemma foc_admin_created (w : World) (h : bytes) (t t' : Table) r :
  storage_ok w -> has_admin t = false ->
  foc w admin_cond (admin_dest h) t r t' ->
  t' = (t ++ [admin_dest h])%list
  /\ r = {| gorm.Error := None; gorm.RowsAffected := 1 |}.
Proof.
  intros [Hf Hc] Ha H. apply find_admin_none in Ha.
  inversion H; subst; try congruence.
  now rewrite assign_admin.
Qed.

(** ** The table after a run *)

Lemma users_after_cases (w : World) (t : Table) :
  users_after w t = t
  \/ (starts w /\ has_admin t = false
      /\ users_after w t = (t ++ [admin_dest (fst (admin_hash w))])%list).
Proof.
  unfold users_after. destruct (run_path w t) as [| | |cfg r t' Hc Ho Hm Hfoc];
    try (left; reflexivity).
  rewrite serve_users; cbn.
  destruct (foc_admin_table _ _ _ _ _ Hfoc) as [[-> _]|(-> & Hn & _)];
    [left; reflexivity | right].
  repeat split; try assumption; unfold starts; rewrite Hc; cbn; auto.
Qed.

Lemma users_after_found (w : World) (t : Table) :
  has_admin t = true -> users_after w t = t.
Proof.
  intros Ha. destruct (users_after_cases w t) as [H|(_ & Hn & _)];
    [exact H | congruence].
Qed.

Lemma users_after_created (w : World) (t : Table) :
  starts w -> storage_ok w -> has_admin t = false ->
  users_after w t = (t ++ [admin_dest (fst (admin_hash w))])%list.
Proof.
  intros Hs Hok Ha. destruct (starts_inv w Hs) as (cfg & Hc & Ho & Hm).
  unfold users_after.
  destruct (run_path w t) as [| | |cfg' r t' Hc' Ho' Hm' Hfoc]; try congruence.
  rewrite serve_users; cbn.
  now destruct (foc_admin_created _ _ _ _ _ Hok Ha Hfoc).
Qed.

(** ** The logger *)

Lemma logger_ok_ready (tr : list Event) : logger_ok true tr = true.
Proof.
  induction tr as [|e tr IH]; [reflexivity|]. destruct e; cbn; exact IH.
Qed.

Lemma first_init_app (tr1 tr2 : list Event) (p : string * string) :
  first_init tr1 = Some p -> first_init (tr1 ++ tr2) = Some p.
Proof.
  induction tr1 as [|e tr1 IH]; cbn; [discriminate|].
  destruct e; auto.
Qed.

Lemma logger_ok_app (tr1 tr2 : list Event) (p : string * string) :
  first_init tr1 = Some p -> logger_ok false tr1 = true ->
  logger_ok false (tr1 ++ tr2) = true.
Proof.
  induction tr1 as [|e tr1 IH]; cbn; [discriminate|].
  destruct e; cbn; auto; try discriminate.
  intros _ _. apply logger_ok_ready.
Qed.

(** ** The whole trace of a run that starts *)

Lemma run_of_started (w : World) (t : Table) :
  starts w ->
  let cfg := fst (w_LoadConfig w) in
  let addr := listen_addr cfg in
  exists r t',
    foc w admin_cond (admin_dest (fst (admin_hash w))) t r t'
    /\ run w t =
       run_end w cfg
         {| trace := startup_trace cfg ++ bootstrap_trace w r ++ wire_trace
                     ++ [EvLogInfo "Servidor iniciado" [("port", VStr addr)];
                         EvRun addr]
                     ++ run_tail w cfg;
            users := t' |}.
Proof.
  intros Hs. destruct (starts_inv w Hs) as (cfg & Hc & Ho & Hm).
  rewrite Hc; cbn [fst]. cbv zeta.
  destruct (run_path w t) as [| | |cfg' r t' Hc' Ho' Hm' Hfoc]; try congruence.
  assert (cfg' = cfg) by congruence. subst cfg'.
  exists r, t'. split; [exact Hfoc|].
  rewrite serve_spec. unfold run_end, run_tail. cbn [trace users].
  destruct (w_Run w (listen_addr cfg)) as [|[e|]]; f_equal; f_equal;
    rewrite ?app_nil_r; same_trace.
Qed.

Lemma final_run_end (w : World) (cfg : config.Config) (s : Proc) :
  final (run_end w cfg s) = s.
Proof.
  unfold run_end. destruct (w_Run w (listen_addr cfg)) as [|[e|]]; reflexivity.
Qed.

Lemma trace_of_started (w : World) (t : Table) :
  starts w ->
  let cfg := fst (w_LoadConfig w) in
  let addr := listen_addr cfg in
  exists r t',
    foc w admin_cond (admin_dest (fst (admin_hash w))) t r t'
    /\ trace_of w t =
       startup_trace cfg ++ bootstrap_trace w r ++ wire_trace
       ++ [EvLogInfo "Servidor iniciado" [("port", VStr addr)]; EvRun addr]
       ++ run_tail w cfg.
Proof.
  intros Hs. destruct (run_of_started w t Hs) as (r & t' & Hfoc & Heq).
  exists r, t'. split; [exact Hfoc|].
  unfold trace_of. rewrite Heq, final_run_end. reflexivity.
Qed.

(** Filtering the parts of a trace. *)
Lemma filter_log_if (f : Event -> bool) (err : option error) (msg : string) :
  (forall kv, f (EvLogError msg kv) = false) ->
  filter f (log_if err msg) = [].
Proof.
  intros Hf. destruct err as [e|]; cbn; [|reflexivity]. now rewrite Hf.
Qed.

Lemma filter_run_tail (f : Event -> bool) (w : World) (cfg : config.Config) :
  (forall msg kv, f (EvLogError msg kv) = false) ->
  (forall code, f (EvExit code) = false) ->
  filter f (run_tail w cfg) = [].
Proof.
  intros Hl He. unfold run_tail.
  destruct (w_Run w (listen_addr cfg)) as [|[e|]]; cbn; try reflexivity.
  now rewrite Hl, He.
Qed.

(** The table a run that starts leaves behind is the one [FirstOrCreate]
    left. *)
Lemma users_after_started (w : World) (t : Table) :
  starts w ->
  exists r,
    foc w admin_cond (admin_dest (fst (admin_hash w))) t r (users_after w t).
Proof.
  intros Hs. destruct (run_of_started w t Hs) as (r & t' & Hfoc & Heq).
  exists r. unfold users_after. now rewrite Heq, final_run_end.
Qed.

(** The calls of the bootstrap in a trace. *)
Lemma bootstrap_calls (w : World) (t : Table) :
  filter is_bootstrap_call (trace_of w t) = []
  \/ filter is_bootstrap_call (trace_of w t) =
     [ EvGenerateFromPassword (bytes_of "admin") bcrypt.DefaultCost;
       EvFirstOrCreate admin_cond (admin_dest (fst (admin_hash w))) ].
Proof.
  destruct (w_LoadConfig w) as [cfg [e|]] eqn:Hc.
  { left. unfold trace_of. now rewrite (run_config_error w t cfg e Hc). }
  destruct (w_Open w (config.DSN (config.Database cfg))) as [e|] eqn:Ho.
  { left. unfold trace_of. now rewrite (run_open_error w t cfg e Hc Ho). }
  destruct (w_AutoMigrate w) as [e|] eqn:Hm.
  { left. unfold trace_of. now rewrite (run_migrate_error w t cfg e Hc Ho Hm). }
  right.
  assert (Hs : starts w) by (unfold starts; rewrite Hc; cbn; auto).
  destruct (trace_of_started w t Hs) as (r & t' & _ & ->).
  rewrite !filter_app. unfold bootstrap_trace.
  cbn [filter is_bootstrap_call app startup_trace wire_trace].
  rewrite filter_app. cbn [filter is_bootstrap_call app].
  rewrite filter_app. cbn [filter is_bootstrap_call app].
  rewrite !filter_log_if by reflexivity.
  rewrite filter_run_tail by reflexivity.
  reflexivity.
Qed.

(** Under bcrypt's contract the first result of [GenerateFromPassword] is
    never the plaintext admin. *)
Lemma hash_not_plaintext (w : World) (password : bytes) (cost : Z) :
  bcrypt_contract w ->
  string_of (fst (w_GenerateFromPassword w password cost)) <> "admin"%string.
Proof.
  intros Hb Heq. specialize (Hb password cost).
  destruct (w_GenerateFromPassword w password cost) as [h [e|]];
    cbn [fst] in Heq.
  - subst h. discriminate.
  - apply (f_equal list_byte_of_string) in Heq. unfold string_of in Heq.
    rewrite list_byte_of_string_of_list_byte in Heq. subst h. discriminate.
Qed.

(** * The properties of [main] *)

Lemma has_admin_count (t : Table) :
  has_admin t = true -> (1 <= count_admin t)%nat.
Proof.
  intros Ha. destruct (count_admin t) eqn:E; [|lia].
  apply count_admin_zero in E. congruence.
Qed.

(** C1.  Two runs of the bootstrap against the same storage leave exactly
    one row named admin, and the second run changes nothing: the table after
    the second run is the table after the first one, so the row, and with it
    the password hash, is the one the first run left.  More generally a run
    against a table that already holds a row named admin leaves the table as
    it was, whatever the collaborators answer.  The storage keeps usernames
    unique (at most one row named admin to begin with), and the first run
    gets through the start-up with a database that reports no error. *)
Theorem bootstrap_twice_one_admin (w1 w2 : World) (t : Table) :
  (count_admin t <= 1)%nat -> starts w1 -> storage_ok w1 ->
  let t1 := users_after w1 t in
  let t2 := users_after w2 t1 in
  count_admin t2 = 1%nat
  /\ t2 = t1
  /\ filter is_admin t2 = filter is_admin t1
  /\ (forall w t0, has_admin t0 = true -> users_after w t0 = t0).
Proof.
  intros Huniq Hs Hok t1 t2.
  assert (H1 : has_admin t1 = true /\ count_admin t1 = 1%nat).
  { subst t1 t2. destruct (has_admin t) eqn:Ha.
    - rewrite (users_after_found w1 t Ha). split; [exact Ha|].
      pose proof (has_admin_count t Ha). lia.
    - rewrite (users_after_created w1 t Hs Hok Ha). split.
      + unfold has_admin. rewrite existsb_app. cbn. apply orb_true_r.
      + rewrite count_admin_app, count_admin_dest.
        apply count_admin_zero in Ha. lia. }
  destruct H1 as [Ha1 Hc1].
  assert (H2 : t2 = t1) by (subst t2; now apply users_after_found).
  rewrite H2. repeat split; try assumption.
  intros w t0. apply users_after_found.
Qed.

Lemma bootstrap_twice_one_admin_witness :
  let t1 := users_after healthy [alice] in
  let t2 := users_after no_entropy t1 in
  count_admin t2 = 1%nat
  /\ t2 = t1
  /\ filter is_admin t2 = filter is_admin t1
  /\ (forall w t0, has_admin t0 = true -> users_after w t0 = t0).
Proof.
  apply (bootstrap_twice_one_admin healthy no_entropy [alice]).
  - vm_compute. lia.
  - unfold starts. repeat split; reflexivity.
  - unfold storage_ok. split; [reflexivity | intros u; reflexivity].
Defined.

(** C3.  On a first run against a table without a row named admin (the
    start-up went well, bcrypt gave the hash [h] of the plaintext admin at the
    default cost, the database reported no error) exactly one row is added:
    username admin, role admin, display name Administrator, password hash
    [h]. *)
Theorem first_run_creates_admin (w : World) (t : Table) (h : bytes) :
  starts w -> storage_ok w -> has_admin t = false ->
  w_GenerateFromPassword w (bytes_of "admin") bcrypt.DefaultCost = (h, None) ->
  users_after w t =
    t ++ [ {| models.Username := "admin";
              models.Email := "onyx.views5004@eagereverest.com";
              models.DisplayName := "Administrator";
              models.PasswordHash := string_of h;
              models.Role := "admin" |} ]
  /\ count_admin (users_after w t) = 1%nat.
Proof.
  intros Hs Hok Ha Hh.
  rewrite (users_after_created w t Hs Hok Ha). unfold admin_hash.
  rewrite Hh. cbn [fst]. repeat split.
  rewrite count_admin_app. apply count_admin_zero in Ha. rewrite Ha.
  reflexivity.
Qed.

Lemma first_run_creates_admin_witness :
  users_after healthy [alice] =
    [alice] ++ [ {| models.Username := "admin";
                    models.Email := "onyx.views5004@eagereverest.com";
                    models.DisplayName := "Administrator";
                    models.PasswordHash := string_of sample_hash;
                    models.Role := "admin" |} ]
  /\ count_admin (users_after healthy [alice]) = 1%nat.
Proof.
  apply (first_run_creates_admin healthy [alice] sample_hash).
  - unfold starts. repeat split; reflexivity.
  - unfold storage_ok. split; [reflexivity | intros u; reflexivity].
  - reflexivity.
  - reflexivity.
Defined.

(** C8.  When the configuration cannot be loaded, the database cannot be
    opened or the migration fails, the process exits with code 1; up to
    there [main] made no call of the admin bootstrap, and the table of users
    is the one the run found. *)
Theorem startup_failure_exits_before_bootstrap (w : World) (t : Table) :
  isErr (snd (w_LoadConfig w)) = true
  \/ isErr (w_Open w (config.DSN (config.Database (fst (w_LoadConfig w)))))
     = true
  \/ isErr (w_AutoMigrate w) = true ->
  exists tr,
    run w t = Stop (Exited 1) {| trace := tr; users := t |}
    /\ filter is_bootstrap_call tr = []
    /\ last tr EvLoadConfig = EvExit 1
    /\ users_after w t = t.
Proof.
  intros Hfail. unfold users_after.
  destruct (run_path w t) as [cfg e Hc|cfg e Hc Ho|cfg e Hc Ho Hm
                              |cfg r t' Hc Ho Hm Hfoc].
  - eexists; repeat split; reflexivity.
  - eexists; repeat split; reflexivity.
  - eexists; repeat split; reflexivity.
  - exfalso. rewrite Hc in Hfail; cbn [fst snd] in Hfail.
    rewrite Ho, Hm in Hfail. cbn in Hfail.
    destruct Hfail as [H|[H|H]]; discriminate.
Qed.

Lemma startup_failure_exits_before_bootstrap_witness :
  exists tr,
    run no_config [alice] = Stop (Exited 1) {| trace := tr; users := [alice] |}
    /\ filter is_bootstrap_call tr = []
    /\ last tr EvLoadConfig = EvExit 1
    /\ users_after no_config [alice] = [alice].
Proof.
  apply (startup_failure_exits_before_bootstrap no_config [alice]).
  left. reflexivity.
Defined.

(** C7.  In every run the logger is set up before it is used: no
    [logger.Info] or [logger.Error] comes before the first [logger.Init].
    When the configuration cannot be loaded the logger is set up with
    info and text and the error is logged after that; otherwise it is set up
    with the configured level and format, info and text standing in for
    empty ones. *)
Theorem logger_initialised_before_use (w : World) (t : Table) :
  logger_ok false (trace_of w t) = true
  /\ match w_LoadConfig w with
     | (_, Some e) =>
         trace_of w t =
           [ EvLoadConfig;
             EvLoggerInit "info" "text";
             EvLogError "Falha ao carregar as configurações"
                        [("error", VErr e)];
             EvExit 1 ]
     | (cfg, None) =>
         let level := config.Level (config.Log cfg) in
         let format := config.Format (config.Log cfg) in
         first_init (trace_of w t) =
           Some (if (level =? "")%string then "info" else level,
                 if (format =? "")%string then "text" else format)
     end.
Proof.
  unfold trace_of.
  destruct (run_path w t) as [cfg e Hc|cfg e Hc Ho|cfg e Hc Ho Hm
                              |cfg r t' Hc Ho Hm Hfoc];
    rewrite Hc.
  - split; reflexivity.
  - split; reflexivity.
  - split; reflexivity.
  - rewrite serve_spec.
    assert (Hi : first_init (startup_trace cfg) =
                 Some (log_level cfg, log_format cfg)) by reflexivity.
    assert (Hl : logger_ok false (startup_trace cfg) = true) by reflexivity.
    destruct (w_Run w (listen_addr cfg)) as [|[e|]]; cbn [final trace];
      repeat rewrite <- app_assoc;
      (split; [eapply logger_ok_app; eassumption
              | now apply first_init_app]).
Qed.

(** C10.  A run that gets through the start-up calls [r.Run] once, on
    [":8080"] when the configured port is 0 and otherwise on a colon followed
    by the decimal digits of the configured port (read back as a number,
    these digits give the port). *)
Theorem listens_on_configured_port (w : World) (t : Table) :
  starts w ->
  let port := config.Port (config.Server (fst (w_LoadConfig w))) in
  filter is_run (trace_of w t) =
    [EvRun (if port =? 0 then ":8080" else (":" ++ fmt.verb_d port)%string)]
  /\ option_map Z.of_int (NilEmpty.int_of_string (fmt.verb_d port))
     = Some port.
Proof.
  intros Hs port. split.
  - destruct (trace_of_started w t Hs) as (r & t' & _ & ->).
    rewrite !filter_app. unfold bootstrap_trace.
    cbn [filter is_run app startup_trace wire_trace].
    rewrite filter_app. cbn [filter is_run app].
    rewrite filter_app. cbn [filter is_run app].
    rewrite !filter_log_if by reflexivity.
    rewrite filter_run_tail by reflexivity.
    reflexivity.
  - unfold fmt.verb_d. rewrite NilEmpty.isi. cbn [option_map].
    now rewrite DecimalZ.of_to.
Qed.

Lemma listens_on_configured_port_witness :
  filter is_run (trace_of healthy [alice]) = [EvRun ":3000"]
  /\ option_map Z.of_int (NilEmpty.int_of_string (fmt.verb_d 3000))
     = Some 3000.
Proof.
  apply (listens_on_configured_port healthy [alice]).
  unfold starts. repeat split; reflexivity.
Defined.

(** C4.  Once the start-up went well, whatever bcrypt and the database
    answer during the bootstrap: a failed hash generation and a failed
    [FirstOrCreate] are each logged, no [os.Exit] is called before the
    adapters are built, the router is set up and [r.Run] is called, and how
    the process ends depends on [r.Run] alone. *)
Theorem bootstrap_failure_not_fatal (w : World) (t : Table) :
  starts w ->
  let cfg := fst (w_LoadConfig w) in
  let addr := listen_addr cfg in
  exists r t' pre,
    foc w admin_cond (admin_dest (fst (admin_hash w))) t r t'
    /\ run w t =
       run_end w cfg
         {| trace := pre ++ wire_trace
                     ++ [EvLogInfo "Servidor iniciado" [("port", VStr addr)];
                         EvRun addr]
                     ++ run_tail w cfg;
            users := t' |}
    /\ filter is_exit pre = []
    /\ (forall e, snd (admin_hash w) = Some e ->
        In (EvLogError "Falha ao gerar hash da senha do admin"
                       [("error", VErr e)]) pre)
    /\ (forall e, gorm.Error r = Some e ->
        In (EvLogError "Falha ao criar usuário admin" [("error", VErr e)])
           pre).
Proof.
  intros Hs cfg addr.
  destruct (run_of_started w t Hs) as (r & t' & Hfoc & Heq).
  exists r, t', (startup_trace cfg ++ bootstrap_trace w r).
  split; [exact Hfoc|]. split.
  { rewrite Heq. fold cfg. fold addr. now rewrite <- app_assoc. }
  unfold bootstrap_trace. split; [|split].
  - rewrite filter_app. cbn [filter is_exit app startup_trace].
    rewrite filter_app. cbn [filter is_exit app].
    rewrite filter_app. cbn [filter is_exit app].
    now rewrite !filter_log_if by reflexivity.
  - intros e He. rewrite He. apply in_or_app. right. cbn. auto.
  - intros e He. rewrite He. apply in_or_app. right.
    right. apply in_or_app. right. right. cbn. auto.
Qed.

Lemma bootstrap_failure_not_fatal_witness :
  let cfg := fst (w_LoadConfig broken_bootstrap) in
  let addr := listen_addr cfg in
  exists r t' pre,
    foc broken_bootstrap admin_cond
        (admin_dest (fst (admin_hash broken_bootstrap))) [alice] r t'
    /\ run broken_bootstrap [alice] =
       run_end broken_bootstrap cfg
         {| trace := pre ++ wire_trace
                     ++ [EvLogInfo "Servidor iniciado" [("port", VStr addr)];
                         EvRun addr]
                     ++ run_tail broken_bootstrap cfg;
            users := t' |}
    /\ filter is_exit pre = []
    /\ (forall e, snd (admin_hash broken_bootstrap) = Some e ->
        In (EvLogError "Falha ao gerar hash da senha do admin"
                       [("error", VErr e)]) pre)
    /\ (forall e, gorm.Error r = Some e ->
        In (EvLogError "Falha ao criar usuário admin" [("error", VErr e)])
           pre).
Proof.
  apply (bootstrap_failure_not_fatal broken_bootstrap [alice]).
  unfold starts. repeat split; reflexivity.
Defined.

(** C9.  When bcrypt fails (it hands back a nil slice with its error),
    [main] logs the error and goes on to [FirstOrCreate] with a record whose
    password hash is empty; on a table without a row named admin and a
    database that reports no error, that record is inserted. *)
Theorem hash_failure_creates_with_empty_hash
  (w : World) (t : Table) (e : error) :
  starts w ->
  w_GenerateFromPassword w (bytes_of "admin") bcrypt.DefaultCost
    = ([], Some e) ->
  let dest := {| models.Username := "admin";
                 models.Email := "onyx.views5004@eagereverest.com";
                 models.DisplayName := "Administrator";
                 models.PasswordHash := "";
                 models.Role := "admin" |} in
  exists r pre post,
    foc w admin_cond dest t r (users_after w t)
    /\ trace_of w t =
       pre
       ++ [ EvGenerateFromPassword (bytes_of "admin") bcrypt.DefaultCost;
            EvLogError "Falha ao gerar hash da senha do admin"
                       [("error", VErr e)];
            EvFirstOrCreate admin_cond dest ]
       ++ post
    /\ (storage_ok w -> has_admin t = false ->
        users_after w t = t ++ [dest]).
Proof.
  intros Hs Hh dest.
  assert (Hd : admin_dest (fst (admin_hash w)) = dest)
    by (unfold admin_hash; rewrite Hh; reflexivity).
  destruct (users_after_started w t Hs) as (r & Hfoc).
  destruct (trace_of_started w t Hs) as (r' & t' & Hfoc' & Htr).
  destruct (foc_functional _ _ _ _ _ _ _ _ Hfoc' Hfoc) as [-> ->].
  rewrite Hd in Hfoc.
  exists r, (startup_trace (fst (w_LoadConfig w))).
  eexists. split; [exact Hfoc|]. split.
  - rewrite Htr. unfold bootstrap_trace. rewrite Hd.
    unfold admin_hash. rewrite Hh. cbn [snd log_if app]. reflexivity.
  - intros Hok Ha. rewrite (users_after_created w t Hs Hok Ha).
    now rewrite Hd.
Qed.

Lemma hash_failure_creates_with_empty_hash_witness :
  let dest := {| models.Username := "admin";
                 models.Email := "onyx.views5004@eagereverest.com";
                 models.DisplayName := "Administrator";
                 models.PasswordHash := "";
                 models.Role := "admin" |} in
  exists r pre post,
    foc no_entropy admin_cond dest [alice] r (users_after no_entropy [alice])
    /\ trace_of no_entropy [alice] =
       pre
       ++ [ EvGenerateFromPassword (bytes_of "admin") bcrypt.DefaultCost;
            EvLogError "Falha ao gerar hash da senha do admin"
                       [("error", VErr "crypto/rand: no entropy")];
            EvFirstOrCreate admin_cond dest ]
       ++ post
    /\ (storage_ok no_entropy -> has_admin [alice] = false ->
        users_after no_entropy [alice] = [alice] ++ [dest]).
Proof.
  apply (hash_failure_creates_with_empty_hash
           no_entropy [alice] "crypto/rand: no entropy").
  - unfold starts. repeat split; reflexivity.
  - reflexivity.
Defined.

(** C6.  The password field of the record [main] hands to [FirstOrCreate],
    and of every row a run adds to the table, is the string made of the
    bytes bcrypt gave for the plaintext admin; it is never the plaintext
    itself (bcrypt gives a hash of 60 bytes, or a nil slice with an
    error). *)
Theorem admin_password_stored_as_hash (w : World) (t : Table) :
  bcrypt_contract w ->
  let hash :=
    string_of (fst (w_GenerateFromPassword w (bytes_of "admin")
                                           bcrypt.DefaultCost)) in
  (forall cond dest,
      In (EvFirstOrCreate cond dest) (trace_of w t) ->
      models.PasswordHash dest = hash
      /\ models.PasswordHash dest <> "admin"%string)
  /\ (forall u,
         In u (users_after w t) ->
         In u t
         \/ (models.PasswordHash u = hash
             /\ models.PasswordHash u <> "admin"%string)).
Proof.
  intros Hb hash.
  assert (Hn : hash <> "admin"%string) by (apply hash_not_plaintext; exact Hb).
  split.
  - intros cond dest Hin.
    assert (Hf : In (EvFirstOrCreate cond dest)
                    (filter is_bootstrap_call (trace_of w t)))
      by (apply filter_In; split; [exact Hin | reflexivity]).
    destruct (bootstrap_calls w t) as [H|H]; rewrite H in Hf.
    + destruct Hf.
    + destruct Hf as [Hf|[Hf|[]]]; [discriminate|].
      injection Hf as _ <-. split; [reflexivity | exact Hn].
  - intros u Hin.
    destruct (users_after_cases w t) as [H|(_ & _ & H)]; rewrite H in Hin.
    + left; exact Hin.
    + apply in_app_or in Hin. destruct Hin as [Hin|[<-|[]]];
        [left; exact Hin | right].
      split; [reflexivity | exact Hn].
Qed.

Lemma admin_password_stored_as_hash_witness :
  let hash :=
    string_of (fst (w_GenerateFromPassword healthy (bytes_of "admin")
                                           bcrypt.DefaultCost)) in
  (forall cond dest,
      In (EvFirstOrCreate cond dest) (trace_of healthy [alice]) ->
      models.PasswordHash dest = hash
      /\ models.PasswordHash dest <> "admin"%string)
  /\ (forall u,
         In u (users_after healthy [alice]) ->
         In u [alice]
         \/ (models.PasswordHash u = hash
             /\ models.PasswordHash u <> "admin"%string)).
Proof.
  apply (admin_password_stored_as_hash healthy [alice]).
  intros password cost. reflexivity.
Defined.

(** C5.  [Authenticate] on an identifier that is not in the credential
    store and [Authenticate] on an identifier that is there with a password
    that does not match the stored hash give the same answer:
    [InvalidCredentials], with the session store left as it was. *)
Theorem authenticate_failures_indistinguishable
  {US SS : Type} {UA : auth.UserAdapter US} {SA : auth.SessionAdapter SS}
  (policy : auth.AuthConfig) (compare : string -> string -> bool)
  (users : US) (sessions : SS) (now : Z) (token : string)
  (id1 pw1 id2 pw2 : string) (u : models.User) :
  auth.FindByIdentifier users id1 = None ->
  auth.FindByIdentifier users id2 = Some u ->
  compare (models.PasswordHash u) pw2 = false ->
  auth.Authenticate policy compare users sessions now token id1 pw1
    = (inr auth.InvalidCredentials, sessions)
  /\ auth.Authenticate policy compare users sessions now token id2 pw2
     = (inr auth.InvalidCredentials, sessions).
Proof.
  intros Habsent Hfound Hmismatch. unfold auth.Authenticate.
  rewrite Habsent, Hfound, Hmismatch. split; reflexivity.
Qed.

Lemma authenticate_failures_indistinguishable_witness :
  auth.Authenticate auth.sample_policy auth.sample_compare
                    ([alice] : Table) ([] : list auth.Session) 1000 "tok"
                    "bob" "secret"
    = (inr auth.InvalidCredentials, [])
  /\ auth.Authenticate auth.sample_policy auth.sample_compare
                       ([alice] : Table) ([] : list auth.Session) 1000 "tok"
                       "alice" "wrong"
     = (inr auth.InvalidCredentials, []).
Proof.
  apply (authenticate_failures_indistinguishable
           auth.sample_policy auth.sample_compare
           ([alice] : Table) ([] : list auth.Session) 1000 "tok"
           "bob" "secret" "alice" "wrong" alice);
    reflexivity.
Defined.

(** * Further properties of [main] *)

(** ** The table of users *)

Lemma has_admin_usernames (t : Table) :
  has_admin t = false -> ~ In "admin"%string (usernames t).
Proof.
  induction t as [|u t IH]; cbn [has_admin existsb usernames map In];
    [tauto|].
  intros H. apply orb_false_iff in H. destruct H as [Hu Ht].
  intros [Heq|Hin]; [|now apply IH].
  unfold is_admin in Hu. rewrite Heq, String.eqb_refl in Hu. discriminate.
Qed.

Lemma NoDup_snoc {A : Type} (l : list A) (x : A) :
  NoDup l -> ~ In x l -> NoDup (l ++ [x]).
Proof.
  induction l as [|y l IH]; cbn; intros Hnd Hx.
  - constructor; [intros []|constructor].
  - inversion Hnd as [|? ? Hy Hl]; subst. constructor.
    + rewrite in_app_iff. cbn. intros [H|[H|[]]]; [now apply Hy|].
      subst. apply Hx. now left.
    + apply IH; [exact Hl|]. intros H. apply Hx. now right.
Qed.

(** X1.  A run never removes, changes or reorders a row: the table it
    leaves is the table it found, followed by at most one new row.  A row is
    added only when no row was named admin, and the new row is named admin,
    with the role admin and the display name Administrator. *)
Theorem run_only_appends_admin (w : World) (t : Table) :
  exists extra,
    users_after w t = t ++ extra
    /\ (List.length extra <= 1)%nat
    /\ (forall u, In u extra ->
          has_admin t = false
          /\ models.Username u = "admin"%string
          /\ models.Role u = "admin"%string
          /\ models.DisplayName u = "Administrator"%string).
Proof.
  destruct (users_after_cases w t) as [H|(_ & Ha & H)].
  - exists []. rewrite app_nil_r. split; [exact H|].
    split; [cbn; lia|]. intros u [].
  - exists [admin_dest (fst (admin_hash w))].
    split; [exact H|]. split; [cbn; lia|].
    intros u [<-|[]]. repeat split. exact Ha.
Qed.

(** X2.  A run keeps usernames unique: when no two rows of the table share
    a username before the run, no two do after it. *)
Theorem run_keeps_usernames_unique (w : World) (t : Table) :
  NoDup (usernames t) -> NoDup (usernames (users_after w t)).
Proof.
  intros Hnd. destruct (users_after_cases w t) as [->|(_ & Ha & ->)];
    [exact Hnd|].
  unfold usernames. rewrite map_app. cbn [map admin_dest models.Username].
  apply NoDup_snoc; [exact Hnd | now apply has_admin_usernames].
Qed.

Lemma run_keeps_usernames_unique_witness :
  NoDup (usernames (users_after healthy [alice])).
Proof.
  apply (run_keeps_usernames_unique healthy [alice]).
  cbn. constructor; [intros [] | constructor].
Defined.

Lemma has_admin_snoc (t : Table) (h : bytes) :
  has_admin (t ++ [admin_dest h]) = true.
Proof.
  unfold has_admin. rewrite existsb_app. cbn. apply orb_true_r.
Qed.

Lemma restarts_found (ws : list World) (t : Table) :
  has_admin t = true -> restarts ws t = t.
Proof.
  revert t. induction ws as [|w ws IH]; intros t Ha; [reflexivity|].
  cbn [restarts fold_left]. rewrite (users_after_found w t Ha).
  now apply IH.
Qed.

(** X3.  However often the process is restarted against the same database,
    and whatever the collaborators answer in each run, at most one row is
    ever added; it is the admin row of the first run that inserted one, with
    the hash bcrypt gave in that run, and the later runs leave it alone.  A
    table that holds a row named admin is left as it is by any number of
    runs. *)
Theorem restarts_add_one_admin (ws : list World) (t : Table) :
  (has_admin t = true /\ restarts ws t = t)
  \/ (has_admin t = false
      /\ (restarts ws t = t
          \/ exists before w after,
               ws = before ++ w :: after
               /\ restarts before t = t
               /\ starts w
               /\ restarts ws t = t ++ [admin_dest (fst (admin_hash w))])).
Proof.
  destruct (has_admin t) eqn:Ha.
  { left. split; [reflexivity | now apply restarts_found]. }
  right. split; [reflexivity|].
  induction ws as [|w ws IH]; [left; reflexivity|].
  cbn [restarts fold_left].
  destruct (users_after_cases w t) as [H|(Hs & _ & H)]; rewrite H.
  - destruct IH as [IH|(before & w' & after & -> & Hb & Hs' & IH)].
    + left. exact IH.
    + right. exists (w :: before), w', after.
      split; [reflexivity|]. split; [|split; [exact Hs' | exact IH]].
      cbn [restarts fold_left]. rewrite H. exact Hb.
  - right. exists [], w, ws.
    split; [reflexivity|]. split; [reflexivity|]. split; [exact Hs|].
    apply restarts_found, has_admin_snoc.
Qed.

(** X4.  After a run that got through the start-up with a database that
    reports no error, the table holds a row named admin. *)
Theorem started_run_leaves_admin (w : World) (t : Table) :
  starts w -> storage_ok w -> has_admin (users_after w t) = true.
Proof.
  intros Hs Hok. destruct (has_admin t) eqn:Ha.
  - now rewrite (users_after_found w t Ha).
  - rewrite (users_after_created w t Hs Hok Ha). apply has_admin_snoc.
Qed.

Lemma started_run_leaves_admin_witness :
  has_admin (users_after no_entropy [alice]) = true.
Proof.
  apply (started_run_leaves_admin no_entropy [alice]).
  - unfold starts. repeat split; reflexivity.
  - unfold storage_ok. split; [reflexivity | intros u; reflexivity].
Defined.

(** ** The calls of a run *)

(** Goes through the paths of a run, down to a trace written out. *)
Ltac every_run w t :=
  let cfg := fresh "cfg" in
  let Hc := fresh "Hc" in
  let Ho := fresh "Ho" in
  let Hm := fresh "Hm" in
  let Hfoc := fresh "Hfoc" in
  let h := fresh "h" in
  destruct (run_path w t) as [cfg ? Hc|cfg ? Hc Ho|cfg ? Hc Ho Hm
                              |cfg ? ? Hc Ho Hm Hfoc];
  [ | |
    | rewrite serve_spec; unfold bootstrap_trace, admin_hash in *;
      destruct (w_GenerateFromPassword w (bytes_of "admin")
                                       bcrypt.DefaultCost) as [h [?|]] eqn:?;
      inversion Hfoc; subst;
      destruct (w_Run w (listen_addr cfg)) as [|[?|]] eqn:? ];
  rewrite ?Hc; cbn [fst snd]; rewrite ?Ho, ?Hm; cbn.

Lemma exit_ok_split (tr pre post : list Event) (code : Z) (b : bool) :
  exit_ok b tr = true ->
  tr = pre ++ EvExit code :: post ->
  code = 1 /\ post = []
  /\ ((pre = [] /\ b = true)
      \/ exists msg kv pre', pre = pre' ++ [EvLogError msg kv]).
Proof.
  revert tr b. induction pre as [|e pre IH]; intros tr b Hok ->.
  - cbn in Hok. apply andb_prop in Hok. destruct Hok as [Hok Hp].
    apply andb_prop in Hok. destruct Hok as [Hb Hc].
    apply Z.eqb_eq in Hc. destruct post; [|discriminate]. auto.
  - assert (Hnext : exists b', exit_ok b' (pre ++ EvExit code :: post) = true
                               /\ (b' = true ->
                                   exists msg kv, e = EvLogError msg kv)).
    { destruct e; cbn in Hok;
        try (exists false; split; [exact Hok | discriminate]).
      - exists true. split; [exact Hok|]. intros _. now exists msg, kv.
      - destruct (pre ++ EvExit code :: post) eqn:E;
          [destruct pre; discriminate|].
        rewrite andb_false_r in Hok. discriminate. }
    destruct Hnext as (b' & Hok' & Hb').
    destruct (IH _ b' Hok' eq_refl) as (Hc & Hp & Hpre).
    split; [exact Hc|]. split; [exact Hp|]. right.
    destruct Hpre as [[-> Hb]|(msg & kv & pre' & ->)].
    + destruct (Hb' Hb) as (msg & kv & ->). now exists msg, kv, [].
    + now exists msg, kv, (e :: pre').
Qed.

Lemma run_exit_ok (w : World) (t : Table) :
  exit_ok false (trace_of w t) = true
  /\ (existsb is_exit (trace_of w t) = true ->
      outcome (run w t) = Some (Exited 1)).
Proof.
  unfold trace_of. every_run w t; split; try reflexivity;
    rewrite ?existsb_app; cbn; discriminate.
Qed.

(** X5.  The process never exits silently: wherever [os.Exit] is called in
    a run, the code is 1, the call just before it is a [logger.Error],
    nothing is called after it, and the process ends with exit code 1. *)
Theorem exit_is_logged (w : World) (t : Table)
        (pre post : list Event) (code : Z) :
  trace_of w t = pre ++ EvExit code :: post ->
  code = 1
  /\ post = []
  /\ (exists msg kv pre', pre = pre' ++ [EvLogError msg kv])
  /\ outcome (run w t) = Some (Exited 1).
Proof.
  intros Htr. destruct (run_exit_ok w t) as [Hok Hout].
  destruct (exit_ok_split _ _ _ _ _ Hok Htr) as (Hc & Hp & Hpre).
  split; [exact Hc|]. split; [exact Hp|]. split.
  - destruct Hpre as [[_ Hb]|H]; [discriminate | exact H].
  - apply Hout. rewrite Htr, existsb_app. cbn. apply orb_true_r.
Qed.

Lemma exit_is_logged_witness :
  1 = 1
  /\ @nil Event = []
  /\ (exists msg kv pre',
         [ EvLoadConfig; EvLoggerInit "info" "text";
           EvLogError "Falha ao carregar as configurações"
                      [("error", VErr "config.yaml: no such file")] ]
         = pre' ++ [EvLogError msg kv])
  /\ outcome (run no_config [alice]) = Some (Exited 1).
Proof.
  apply (exit_is_logged no_config [alice]
           [ EvLoadConfig; EvLoggerInit "info" "text";
             EvLogError "Falha ao carregar as configurações"
                        [("error", VErr "config.yaml: no such file")] ]
           [] 1).
  reflexivity.
Defined.

(** X6.  The logger aside, the calls of a run are an initial segment of one
    fixed sequence: load the configuration, open the database, migrate,
    hash the password, [FirstOrCreate], build the adapters, the manager, the
    services, the handler and the router, run the router.  A failure of the
    start-up cuts the sequence after the call that failed; nothing else
    shortens or reorders it, and each call is made at most once. *)
Theorem calls_follow_plan (w : World) (t : Table) :
  filter is_step (trace_of w t) = firstn (steps_done w) (plan w).
Proof.
  unfold trace_of, steps_done, plan, admin_hash.
  every_run w t; try reflexivity;
    rewrite ?filter_app; cbn; reflexivity.
Qed.

Lemma log_level_not_empty (cfg : config.Config) :
  log_level cfg <> ""%string /\ log_format cfg <> ""%string.
Proof.
  unfold log_level, log_format. split.
  - destruct (config.Level (config.Log cfg) =? "")%string eqn:E;
      [discriminate | now apply String.eqb_neq].
  - destruct (config.Format (config.Log cfg) =? "")%string eqn:E;
      [discriminate | now apply String.eqb_neq].
Qed.

(** X7.  Every run sets the logger up exactly once, and never with an empty
    level or an empty format. *)
Theorem logger_initialised_once (w : World) (t : Table) :
  exists level format,
    filter is_logger_init (trace_of w t) = [EvLoggerInit level format]
    /\ level <> ""%string /\ format <> ""%string.
Proof.
  unfold trace_of.
  destruct (run_path w t) as [cfg e Hc|cfg e Hc Ho|cfg e Hc Ho Hm
                              |cfg r t' Hc Ho Hm Hfoc].
  - exists "info"%string, "text"%string. repeat split; discriminate.
  - exists (log_level cfg), (log_format cfg).
    split; [reflexivity | apply log_level_not_empty].
  - exists (log_level cfg), (log_format cfg).
    split; [reflexivity | apply log_level_not_empty].
  - exists (log_level cfg), (log_format cfg).
    split; [|apply log_level_not_empty].
    rewrite serve_spec. unfold bootstrap_trace.
    destruct (w_Run w (listen_addr cfg)) as [|[e|]]; cbn [final trace];
      repeat (rewrite filter_app;
              cbn [filter is_logger_init app startup_trace wire_trace]);
      rewrite ?filter_log_if by reflexivity; reflexivity.
Qed.

(** X8.  In a run that got through the start-up, the number logged under
    [rows_affected] is the number of rows the run added to the table. *)
Theorem rows_affected_is_rows_added (w : World) (t : Table) :
  starts w ->
  In (EvLogInfo "Usuário admin verificado"
        [("rows_affected",
          VInt (Z.of_nat (List.length (users_after w t))
                - Z.of_nat (List.length t)))])
     (trace_of w t).
Proof.
  intros Hs.
  destruct (users_after_started w t Hs) as (r & Hfoc).
  destruct (trace_of_started w t Hs) as (r' & t' & Hfoc' & ->).
  destruct (foc_functional _ _ _ _ _ _ _ _ Hfoc' Hfoc) as [-> ->].
  assert (Hn : gorm.RowsAffected r =
               Z.of_nat (List.length (users_after w t))
               - Z.of_nat (List.length t)).
  { destruct (foc_admin_table _ _ _ _ _ Hfoc) as [[-> ->]|(-> & _ & ->)].
    - lia.
    - rewrite length_app. cbn. lia. }
  rewrite <- Hn. apply in_or_app. right. apply in_or_app. left.
  unfold bootstrap_trace. right. apply in_or_app. right. right.
  apply in_or_app. right. now left.
Qed.

Lemma rows_affected_is_rows_added_witness :
  In (EvLogInfo "Usuário admin verificado"
        [("rows_affected",
          VInt (Z.of_nat (List.length (users_after healthy [alice]))
                - Z.of_nat (List.length [alice])))])
     (trace_of healthy [alice]).
Proof.
  apply (rows_affected_is_rows_added healthy [alice]).
  unfold starts. repeat split; reflexivity.
Defined.

(** X9.  How a run ends.  When the configuration, the database or the
    migration fails the process exits with code 1.  Otherwise the router
    decides: the process serves on the listen address while [r.Run] does not
    come back, exits with code 1 when [r.Run] comes back with an error, and
    [main] returns only when [r.Run] comes back without one.  Nothing in the
    bootstrap changes how the run ends. *)
Theorem run_outcome (w : World) (t : Table) :
  let cfg := fst (w_LoadConfig w) in
  outcome (run w t) =
    if isErr (snd (w_LoadConfig w))
       || isErr (w_Open w (config.DSN (config.Database cfg)))
       || isErr (w_AutoMigrate w)
    then Some (Exited 1)
    else match w_Run w (listen_addr cfg) with
         | Blocks => Some (Serving (listen_addr cfg))
         | Returns None => None
         | Returns (Some _) => Some (Exited 1)
         end.
Proof.
  cbv zeta.
  destruct (run_path w t) as [cfg e Hc|cfg e Hc Ho|cfg e Hc Ho Hm
                              |cfg r t' Hc Ho Hm Hfoc];
    rewrite Hc; cbn [fst snd isErr orb]; try reflexivity.
  - rewrite Ho. reflexivity.
  - rewrite Ho, Hm. reflexivity.
  - rewrite Ho, Hm, serve_spec. cbn [isErr orb].
    destruct (w_Run w (listen_addr cfg)) as [|[e|]]; reflexivity.
Qed.

(** ** The listen address *)

Lemma verb_d_inj (a b : Z) : fmt.verb_d a = fmt.verb_d b -> a = b.
Proof.
  intros H.
  assert (Ha : option_map Z.of_int (NilEmpty.int_of_string (fmt.verb_d a))
               = Some a)
    by (unfold fmt.verb_d; rewrite NilEmpty.isi; cbn; now rewrite DecimalZ.of_to).
  assert (Hb : option_map Z.of_int (NilEmpty.int_of_string (fmt.verb_d b))
               = Some b)
    by (unfold fmt.verb_d; rewrite NilEmpty.isi; cbn; now rewrite DecimalZ.of_to).
  rewrite H in Ha. congruence.
Qed.

(** X10.  The listen address starts with a colon, and two configurations
    give the same listen address only when their ports are equal or one is
    0 and the other 8080. *)
Theorem listen_addr_separates_ports (c1 c2 : config.Config) :
  listen_addr c1 = listen_addr c2 ->
  let p1 := config.Port (config.Server c1) in
  let p2 := config.Port (config.Server c2) in
  (p1 = p2 \/ (p1 = 0 /\ p2 = 8080) \/ (p1 = 8080 /\ p2 = 0))
  /\ exists rest, listen_addr c1 = String ":" rest.
Proof.
  unfold listen_addr. cbv zeta.
  set (p1 := config.Port (config.Server c1)).
  set (p2 := config.Port (config.Server c2)).
  assert (H8080 : fmt.verb_d 8080 = "8080"%string) by reflexivity.
  intros H. split.
  - destruct (Z.eqb_spec p1 0) as [E1|E1]; destruct (Z.eqb_spec p2 0) as [E2|E2].
    + left. congruence.
    + right. left. split; [exact E1|].
      injection H as H. rewrite <- H8080 in H. symmetry. now apply verb_d_inj.
    + right. right. split; [|exact E2].
      injection H as H. rewrite <- H8080 in H. now apply verb_d_inj.
    + left. injection H as H. now apply verb_d_inj.
  - destruct (p1 =? 0); eexists; reflexivity.
Qed.

Lemma listen_addr_separates_ports_witness :
  let p1 := config.Port (config.Server (cfg_on 0)) in
  let p2 := config.Port (config.Server (cfg_on 8080)) in
  (p1 = p2 \/ (p1 = 0 /\ p2 = 8080) \/ (p1 = 8080 /\ p2 = 0))
  /\ exists rest, listen_addr (cfg_on 0) = String ":" rest.
Proof.
  apply (listen_addr_separates_ports (cfg_on 0) (cfg_on 8080)).
  reflexivity.
Defined.
